(** * Double cart-pole task configuration

    A shallow embedding of [cartpole_double_env_cfg.py]: the manager-based
    environment configuration of the double cart-pole task.  The module is
    declarative: configuration classes whose attributes are terms built from
    keyword arguments, two [__post_init__] hooks that overwrite inherited
    fields, and one factory ([create_camera]) that touches the USD stage.

    Conventions of the embedding
    - a Python [float] is a binary64 value ([PrimFloat.float]); a decimal
      literal of the source is the same decimal literal here, and [-x] on a
      literal is the negative literal, the same double as [PrimFloat.opp] of
      the positive one ([negative_literals] below);
    - a Python [int] is a [Z];
    - a [@configclass] whose attributes are terms read by a manager is the
      list of its [(attribute name, term)] pairs in declaration order;
      attribute access is [getattr];
    - a keyword argument that the source does not pass is [None]: the default
      of the host class applies, and that default is not part of this module;
    - a Python [dict] with string keys is a [gmap string _]. *)

From Stdlib Require Import ZArith QArith Floats String List Lqa.
From stdpp Require Import strings gmap.

Set Warnings "-inexact-float".

(** ** Python numbers *)

Module Py.

(** [math.pi]: the binary64 value closest to pi. *)
Definition math_pi : float := 0x1.921fb54442d18p+1%float.

(** A value that the source writes as an [int] into a field that the host
    declares as a [float] stays an [int]. *)
Inductive num : Type :=
| Int (z : Z)
| Float (f : float).

(** [float(z)] for an [int] within the 63-bit range. *)
Definition int_to_float (z : Z) : float :=
  if (z <? 0)%Z
  then PrimFloat.opp (PrimFloat.of_uint63 (Uint63.of_Z (- z)))
  else PrimFloat.of_uint63 (Uint63.of_Z z).

(** [a / b] on two [int]s: true division, a [float];
    [ZeroDivisionError] is [None]. *)
Definition truediv (a b : Z) : option float :=
  if (b =? 0)%Z then None
  else Some (PrimFloat.div (int_to_float a) (int_to_float b)).

Definition to_float (n : num) : float :=
  match n with
  | Int z => int_to_float z
  | Float f => f
  end.

(** [==] on numbers. *)
Definition num_eqb (a b : num) : bool :=
  match a, b with
  | Int x, Int y => (x =? y)%Z
  | _, _ => PrimFloat.eqb (to_float a) (to_float b)
  end.

(** [==] on pairs of floats. *)
Definition pair_eqb (a b : float * float) : bool :=
  PrimFloat.eqb a.1 b.1 && PrimFloat.eqb a.2 b.2.

(** The real number a finite float stands for, as an exact rational. *)
Definition SF2Q (s : spec_float) : option Q :=
  match s with
  | S754_zero _ => Some 0%Q
  | S754_finite sg m e =>
      let mag := Qmult (Zpos m # 1) (Qpower (2 # 1) e) in
      Some (if sg then Qopp mag else mag)
  | S754_infinity _ | S754_nan => None
  end.

Definition float_to_Q (f : float) : option Q := SF2Q (Prim2SF f).

(** [{k1: v1, ...}]: keys are inserted left to right, a repeated key keeps
    the last value. *)
Definition dict {V : Type} (items : list (string * V)) : gmap string V :=
  fold_left (fun m kv => <[kv.1 := kv.2]> m) items ∅.

End Py.

(** ** Classes as ordered attribute lists *)

Definition attrs (A : Type) : Type := list (string * A).

Fixpoint getattr {A : Type} (n : string) (cls : attrs A) : option A :=
  match cls with
  | [] => None
  | (k, v) :: rest => if String.eqb k n then Some v else getattr n rest
  end.

Definition names {A : Type} (cls : attrs A) : list string := map fst cls.

(** ** The [mdp] namespace: term functions, by identifier *)

Module mdp.

Inductive func : Set :=
| is_alive
| is_terminated
| joint_pos_target_l2
| joint_vel_l1
| time_out
| joint_pos_out_of_manual_limit
| reset_joints_to_default
| reset_joints_by_offset
| joint_pos_rel
| joint_vel_rel.

Definition func_eqb (f g : func) : bool :=
  match f, g with
  | is_alive, is_alive
  | is_terminated, is_terminated
  | joint_pos_target_l2, joint_pos_target_l2
  | joint_vel_l1, joint_vel_l1
  | time_out, time_out
  | joint_pos_out_of_manual_limit, joint_pos_out_of_manual_limit
  | reset_joints_to_default, reset_joints_to_default
  | reset_joints_by_offset, reset_joints_by_offset
  | joint_pos_rel, joint_pos_rel
  | joint_vel_rel, joint_vel_rel => true
  | _, _ => false
  end.

(** [mdp.JointEffortActionCfg(asset_name=..., joint_names=..., scale=...)] *)
Record JointEffortActionCfg : Type := {
  asset_name : string;
  joint_names : list string;
  scale : float
}.

(** [mdp.NullCommandCfg()] *)
Inductive NullCommandCfg : Set := NullCommand.

End mdp.

(** ** Host configuration classes, with the keywords this module passes *)

(** [SceneEntityCfg(name, joint_names=...)] *)
Module SceneEntityCfg.
Record t : Type := {
  name : string;
  joint_names : option (list string)
}.
End SceneEntityCfg.

(** Values found in the [params] dictionaries of the terms. *)
Inductive ParamValue : Type :=
| PEntity (e : SceneEntityCfg.t)
| PRange (r : float * float)
| PFloat (x : float).

(** [RewardTermCfg] *)
Module RewTerm.
Record t : Type := {
  func : mdp.func;
  weight : float;
  params : option (gmap string ParamValue)
}.
End RewTerm.

(** [TerminationTermCfg] *)
Module DoneTerm.
Record t : Type := {
  func : mdp.func;
  time_out : option bool;
  params : option (gmap string ParamValue)
}.
End DoneTerm.

(** [EventTermCfg] *)
Module EventTerm.
Record t : Type := {
  func : mdp.func;
  mode : string;
  params : option (gmap string ParamValue)
}.
End EventTerm.

(** [ObservationTermCfg] *)
Module ObsTerm.
Record t : Type := {
  func : mdp.func
}.
End ObsTerm.

(** [ObservationGroupCfg]: two flags and the terms of the group. *)
Module ObsGroup.
Record t : Type := {
  enable_corruption : bool;
  concatenate_terms : bool;
  terms : attrs ObsTerm.t
}.
End ObsGroup.

(** ** MDP settings *)

(** [class CommandsCfg] *)
Definition CommandsCfg : attrs mdp.NullCommandCfg :=
  [("null", mdp.NullCommand)].

(** [class ActionsCfg] *)
Definition ActionsCfg : attrs mdp.JointEffortActionCfg :=
  [("joint_effort",
    {| mdp.asset_name := "robot";
       mdp.joint_names := ["RailToCart"];
       mdp.scale := 10.0 |})].

(** [class RewardsCfg] *)
Definition RewardsCfg : attrs RewTerm.t :=
  [("alive",
    {| RewTerm.func := mdp.is_alive;
       RewTerm.weight := 250.0;
       RewTerm.params := None |});
   ("terminating",
    {| RewTerm.func := mdp.is_terminated;
       RewTerm.weight := -800.0;
       RewTerm.params := None |});
   ("pole_pos",
    {| RewTerm.func := mdp.joint_pos_target_l2;
       RewTerm.weight := -30.0;
       RewTerm.params := Some (Py.dict
         [("asset_cfg", PEntity {| SceneEntityCfg.name := "robot";
                                   SceneEntityCfg.joint_names := Some ["CartToPole"] |});
          ("target", PFloat 0.0)]) |});
   ("pole_pos_double",
    {| RewTerm.func := mdp.joint_pos_target_l2;
       RewTerm.weight := -30.0;
       RewTerm.params := Some (Py.dict
         [("asset_cfg", PEntity {| SceneEntityCfg.name := "robot";
                                   SceneEntityCfg.joint_names := Some ["PoleToDouble"] |});
          ("target", PFloat 0.0)]) |});
   ("cart_vel",
    {| RewTerm.func := mdp.joint_vel_l1;
       RewTerm.weight := -10.0;
       RewTerm.params := Some (Py.dict
         [("asset_cfg", PEntity {| SceneEntityCfg.name := "robot";
                                   SceneEntityCfg.joint_names := Some ["RailToCart"] |})]) |});
   ("pole_vel",
    {| RewTerm.func := mdp.joint_vel_l1;
       RewTerm.weight := -10.0;
       RewTerm.params := Some (Py.dict
         [("asset_cfg", PEntity {| SceneEntityCfg.name := "robot";
                                   SceneEntityCfg.joint_names := Some ["CartToPole"] |})]) |});
   ("cart_pos",
    {| RewTerm.func := mdp.joint_pos_target_l2;
       RewTerm.weight := -5.0;
       RewTerm.params := Some (Py.dict
         [("asset_cfg", PEntity {| SceneEntityCfg.name := "robot";
                                   SceneEntityCfg.joint_names := Some ["RailToCart"] |});
          ("target", PFloat 0.0)]) |})].

(** [class TerminationsCfg] *)
Definition TerminationsCfg : attrs DoneTerm.t :=
  [("time_out",
    {| DoneTerm.func := mdp.time_out;
       DoneTerm.time_out := Some true;
       DoneTerm.params := None |});
   ("cart_out_of_bounds",
    {| DoneTerm.func := mdp.joint_pos_out_of_manual_limit;
       DoneTerm.time_out := None;
       DoneTerm.params := Some (Py.dict
         [("asset_cfg", PEntity {| SceneEntityCfg.name := "robot";
                                   SceneEntityCfg.joint_names := Some ["RailToCart"] |});
          ("bounds", PRange (-1.24, 1.24)%float)]) |})].

(** [class CurriculumCfg]: [pass]. *)
Definition CurriculumCfg : attrs unit := [].

(** [class EventCfg]; the string literal between the first and the second
    term is an expression statement, it declares nothing. *)
Definition EventCfg : attrs EventTerm.t :=
  [("reset_to_default",
    {| EventTerm.func := mdp.reset_joints_to_default;
       EventTerm.mode := "reset";
       EventTerm.params := Some (Py.dict
         [("asset_cfg", PEntity {| SceneEntityCfg.name := "robot";
                                   SceneEntityCfg.joint_names := None |})]) |});
   ("reset_pole_position",
    {| EventTerm.func := mdp.reset_joints_by_offset;
       EventTerm.mode := "reset";
       EventTerm.params := Some (Py.dict
         [("asset_cfg", PEntity {| SceneEntityCfg.name := "robot";
                                   SceneEntityCfg.joint_names := Some ["CartToPole"] |});
          ("position_range", PRange (Py.math_pi, Py.math_pi));
          ("velocity_range", PRange (0.0, 0.0)%float)]) |});
   ("reset_pole_double_position",
    {| EventTerm.func := mdp.reset_joints_by_offset;
       EventTerm.mode := "reset";
       EventTerm.params := Some (Py.dict
         [("asset_cfg", PEntity {| SceneEntityCfg.name := "robot";
                                   SceneEntityCfg.joint_names := Some ["PoleToDouble"] |});
          ("position_range", PRange (0.0, 0.0)%float);
          ("velocity_range", PRange (0.0, 0.0)%float)]) |})].

(** [class ObservationsCfg.PolicyCfg(ObsGroup)] *)
Module PolicyCfg.

Definition __post_init__ (self : ObsGroup.t) : ObsGroup.t :=
  let self :=
    {| ObsGroup.enable_corruption := false;
       ObsGroup.concatenate_terms := ObsGroup.concatenate_terms self;
       ObsGroup.terms := ObsGroup.terms self |} in
  let self :=
    {| ObsGroup.enable_corruption := ObsGroup.enable_corruption self;
       ObsGroup.concatenate_terms := true;
       ObsGroup.terms := ObsGroup.terms self |} in
  self.

(** [PolicyCfg()]: the two flags start at the defaults inherited from
    [ObsGroup] (arguments here), the terms are the class attributes, then
    the hook runs. *)
Definition new (inherited_enable_corruption inherited_concatenate_terms : bool)
  : ObsGroup.t :=
  __post_init__
    {| ObsGroup.enable_corruption := inherited_enable_corruption;
       ObsGroup.concatenate_terms := inherited_concatenate_terms;
       ObsGroup.terms :=
         [("joint_pos_rel", {| ObsTerm.func := mdp.joint_pos_rel |});
          ("joint_vel_rel", {| ObsTerm.func := mdp.joint_vel_rel |})] |}.

End PolicyCfg.

(** [class ObservationsCfg]: its one field is [policy: PolicyCfg = PolicyCfg()]. *)
Definition ObservationsCfg (inherited_enable_corruption inherited_concatenate_terms : bool)
  : attrs ObsGroup.t :=
  [("policy", PolicyCfg.new inherited_enable_corruption inherited_concatenate_terms)].

(** ** Scene definition *)

(** The [sim_utils] spawners this module builds, with the keywords it passes. *)
Module sim_utils.

Inductive SpawnerCfg : Type :=
| DomeLightCfg (color : float * float * float) (intensity : float)
| DistantLightCfg (color : float * float * float) (intensity : float)
| PinholeCameraCfg (focal_length focus_distance horizontal_aperture : float)
    (clipping_range : float * float).

End sim_utils.

(** [AssetBaseCfg], and [AssetBaseCfg.InitialStateCfg(rot=...)]. *)
Module AssetBaseCfg.

Record InitialStateCfg : Type := {
  rot : float * float * float * float
}.

Record t : Type := {
  prim_path : string;
  spawn : sim_utils.SpawnerCfg;
  init_state : option InitialStateCfg
}.

End AssetBaseCfg.

(** [ArticulationCfg]: the attachment path, and everything else the robot
    template carries ([other], never read by this module). *)
Module ArticulationCfg.

Record t (Host : Type) : Type := {
  prim_path : string;
  other : Host
}.
Arguments prim_path {Host} _.
Arguments other {Host} _.

(** [cfg.replace(prim_path=p)]: a copy of [cfg] with that one field
    replaced. *)
Definition replace {Host : Type} (cfg : t Host) (p : string) : t Host :=
  {| prim_path := p; other := other cfg |}.

End ArticulationCfg.

(** [CameraCfg] *)
Module CameraCfg.

Record t : Type := {
  prim_path : string;
  update_period : Py.num;
  height : Z;
  width : Z;
  data_types : list string;
  colorize_semantic_segmentation : bool;
  colorize_instance_id_segmentation : bool;
  colorize_instance_segmentation : bool;
  spawn : sim_utils.SpawnerCfg
}.

End CameraCfg.

(** Modelled from the spec: the host's [Camera] sensor class is not in this
    module; the camera it builds carries the camera spec it was given. *)
Module Camera.

Record t : Type := { cfg : CameraCfg.t }.

End Camera.

(** The USD stage: prim path to prim type. *)
Abbreviation Stage := (gmap string string).

(** Code that edits the stage: explicit state passing, with stdpp's monad
    notation. *)
Definition StageM (A : Type) : Type := Stage -> A * Stage.

#[global] Instance StageM_ret : MRet StageM :=
  fun A (a : A) st => (a, st).

#[global] Instance StageM_bind : MBind StageM :=
  fun A B (k : A -> StageM B) (m : StageM A) st =>
    let (a, st') := m st in k a st'.

Module prim_utils.

(** Modelled from the spec: [prim_utils.create_prim(path, type)] of the
    simulator is not in this module; it puts a node of the given type at
    the given path of the world hierarchy. *)
Definition create_prim (prim_path prim_type : string) : StageM unit :=
  fun st => (tt, <[prim_path := prim_type]> st).

End prim_utils.

(** [def create_camera()] *)
Definition create_camera : StageM Camera.t :=
  (prim_utils.create_prim "/World/Origin_00" "Xform" ;;
   prim_utils.create_prim "/World/Origin_01" "Xform" ;;
   let camera_cfg :=
     {| CameraCfg.prim_path := "/World/Origin_.*/CameraSensor";
        CameraCfg.update_period := Py.Int 0;
        CameraCfg.height := 480;
        CameraCfg.width := 640;
        CameraCfg.data_types := ["rgb"];
        CameraCfg.colorize_semantic_segmentation := false;
        CameraCfg.colorize_instance_id_segmentation := false;
        CameraCfg.colorize_instance_segmentation := false;
        CameraCfg.spawn :=
          sim_utils.PinholeCameraCfg 24.0 400.0 20.955 (0.1, 1.0e5)%float |} in
   let camera := {| Camera.cfg := camera_cfg |} in
   mret camera).

(** What a scene attribute can hold. *)
Inductive SceneEntity (Host : Type) : Type :=
| Articulation (c : ArticulationCfg.t Host)
| AssetBase (c : AssetBaseCfg.t)
| Sensor (c : CameraCfg.t).
Arguments Articulation {Host} c.
Arguments AssetBase {Host} c.
Arguments Sensor {Host} c.

Definition is_sensor {Host : Type} (e : SceneEntity Host) : bool :=
  match e with
  | Sensor _ => true
  | Articulation _ | AssetBase _ => false
  end.

(** [InteractiveSceneCfg]: the two constructor keywords this module passes,
    and the entities the subclass declares. *)
Module InteractiveSceneCfg.

Record t (Host : Type) : Type := {
  num_envs : Z;
  env_spacing : float;
  entities : attrs (SceneEntity Host)
}.
Arguments num_envs {Host} _.
Arguments env_spacing {Host} _.
Arguments entities {Host} _.

End InteractiveSceneCfg.

(** [class CartpoleDoubleSceneCfg(InteractiveSceneCfg)], called with
    [num_envs] and [env_spacing]; [CARTPOLE_CFG] is the imported robot
    template.  The string literal after [distant_light] declares nothing. *)
Definition CartpoleDoubleSceneCfg {Host : Type}
    (CARTPOLE_CFG : ArticulationCfg.t Host) (num_envs : Z) (env_spacing : float)
  : InteractiveSceneCfg.t Host :=
  {| InteractiveSceneCfg.num_envs := num_envs;
     InteractiveSceneCfg.env_spacing := env_spacing;
     InteractiveSceneCfg.entities :=
       [("robot",
         Articulation (ArticulationCfg.replace CARTPOLE_CFG "{ENV_REGEX_NS}/Robot"));
        ("dome_light",
         AssetBase
           {| AssetBaseCfg.prim_path := "/World/DomeLight";
              AssetBaseCfg.spawn :=
                sim_utils.DomeLightCfg (0.9, 0.9, 0.9)%float 500.0;
              AssetBaseCfg.init_state := None |});
        ("distant_light",
         AssetBase
           {| AssetBaseCfg.prim_path := "/World/DistantLight";
              AssetBaseCfg.spawn :=
                sim_utils.DistantLightCfg (0.9, 0.9, 0.9)%float 2500.0;
              AssetBaseCfg.init_state :=
                Some {| AssetBaseCfg.rot := (0.738, 0.477, 0.477, 0.0)%float |} |})] |}.

(** ** Environment configuration *)

(** [ViewerCfg]: the two fields the hook writes; [other] is the rest. *)
Module ViewerCfg.

Record t (Host : Type) : Type := {
  eye : float * float * float;
  lookat : float * float * float;
  other : Host
}.
Arguments eye {Host} _.
Arguments lookat {Host} _.
Arguments other {Host} _.

Section Setters.
Context {Host : Type}.

Definition set_eye (v : float * float * float) (self : t Host) : t Host :=
  {| eye := v; lookat := lookat self; other := other self |}.

Definition set_lookat (v : float * float * float) (self : t Host) : t Host :=
  {| eye := eye self; lookat := v; other := other self |}.
End Setters.

End ViewerCfg.

(** [SimulationCfg]: the four fields the hook writes; [other] is the rest. *)
Module SimulationCfg.

Record t (Host : Type) : Type := {
  dt : float;
  gravity : float * float * float;
  render_interval : Z;
  use_fabric : bool;
  other : Host
}.
Arguments dt {Host} _.
Arguments gravity {Host} _.
Arguments render_interval {Host} _.
Arguments use_fabric {Host} _.
Arguments other {Host} _.

Section Setters.
Context {Host : Type}.

Definition set_dt (v : float) (self : t Host) : t Host :=
  {| dt := v; gravity := gravity self;
     render_interval := render_interval self;
     use_fabric := use_fabric self; other := other self |}.

Definition set_gravity (v : float * float * float) (self : t Host) : t Host :=
  {| dt := dt self; gravity := v;
     render_interval := render_interval self;
     use_fabric := use_fabric self; other := other self |}.

Definition set_render_interval (v : Z) (self : t Host) : t Host :=
  {| dt := dt self; gravity := gravity self;
     render_interval := v;
     use_fabric := use_fabric self; other := other self |}.

Definition set_use_fabric (v : bool) (self : t Host) : t Host :=
  {| dt := dt self; gravity := gravity self;
     render_interval := render_interval self;
     use_fabric := v; other := other self |}.
End Setters.

End SimulationCfg.

(** [ManagerBasedRLEnvCfg]: the inherited fields the hook writes, the fields
    the subclass declares, and [other] for the rest of the base class. *)
Module ManagerBasedRLEnvCfg.

Record t (Host : Type) : Type := {
  viewer : ViewerCfg.t Host;
  sim : SimulationCfg.t Host;
  decimation : Z;
  episode_length_s : Py.num;
  scene : InteractiveSceneCfg.t Host;
  observations : attrs ObsGroup.t;
  actions : attrs mdp.JointEffortActionCfg;
  events : attrs EventTerm.t;
  curriculum : attrs unit;
  rewards : attrs RewTerm.t;
  terminations : attrs DoneTerm.t;
  commands : attrs mdp.NullCommandCfg;
  other : Host
}.
Arguments viewer {Host} _.
Arguments sim {Host} _.
Arguments decimation {Host} _.
Arguments episode_length_s {Host} _.
Arguments scene {Host} _.
Arguments observations {Host} _.
Arguments actions {Host} _.
Arguments events {Host} _.
Arguments curriculum {Host} _.
Arguments rewards {Host} _.
Arguments terminations {Host} _.
Arguments commands {Host} _.
Arguments other {Host} _.

Section Setters.
Context {Host : Type}.

Definition set_viewer (v : ViewerCfg.t Host) (self : t Host) : t Host :=
  {| viewer := v; sim := sim self; decimation := decimation self;
     episode_length_s := episode_length_s self; scene := scene self;
     observations := observations self; actions := actions self;
     events := events self; curriculum := curriculum self;
     rewards := rewards self; terminations := terminations self;
     commands := commands self; other := other self |}.

Definition set_sim (v : SimulationCfg.t Host) (self : t Host) : t Host :=
  {| viewer := viewer self; sim := v; decimation := decimation self;
     episode_length_s := episode_length_s self; scene := scene self;
     observations := observations self; actions := actions self;
     events := events self; curriculum := curriculum self;
     rewards := rewards self; terminations := terminations self;
     commands := commands self; other := other self |}.

Definition set_decimation (v : Z) (self : t Host) : t Host :=
  {| viewer := viewer self; sim := sim self; decimation := v;
     episode_length_s := episode_length_s self; scene := scene self;
     observations := observations self; actions := actions self;
     events := events self; curriculum := curriculum self;
     rewards := rewards self; terminations := terminations self;
     commands := commands self; other := other self |}.

Definition set_episode_length_s (v : Py.num) (self : t Host) : t Host :=
  {| viewer := viewer self; sim := sim self; decimation := decimation self;
     episode_length_s := v; scene := scene self;
     observations := observations self; actions := actions self;
     events := events self; curriculum := curriculum self;
     rewards := rewards self; terminations := terminations self;
     commands := commands self; other := other self |}.
End Setters.

(** What the bundle inherits and does not redeclare: the defaults of the
    base class and, for the two flags of an observation group, of [ObsGroup];
    they live in the host framework. *)
Record inherited (Host : Type) : Type := {
  default_viewer : ViewerCfg.t Host;
  default_sim : SimulationCfg.t Host;
  default_decimation : Z;
  default_episode_length_s : Py.num;
  default_other : Host;
  ObsGroup_enable_corruption : bool;
  ObsGroup_concatenate_terms : bool
}.
Arguments default_viewer {Host} _.
Arguments default_sim {Host} _.
Arguments default_decimation {Host} _.
Arguments default_episode_length_s {Host} _.
Arguments default_other {Host} _.
Arguments ObsGroup_enable_corruption {Host} _.
Arguments ObsGroup_concatenate_terms {Host} _.

End ManagerBasedRLEnvCfg.

(** [class CartpoleDoubleEnvCfg(ManagerBasedRLEnvCfg)] *)
Module CartpoleDoubleEnvCfg.
Import ManagerBasedRLEnvCfg.

Section Class.
Context {Host : Type}.

(** [def __post_init__(self)]: the assignments in source order; the one
    expression that can raise is [1 / 120]. *)
Definition __post_init__ (self : t Host) : option (t Host) :=
  let self := set_decimation 1 self in
  let self := set_episode_length_s (Py.Int 10) self in
  let self :=
    set_viewer (ViewerCfg.set_eye (1.4, 0.0, 2.8)%float (viewer self)) self in
  let self :=
    set_viewer (ViewerCfg.set_lookat (-10.0, 0.0, 0.0)%float (viewer self)) self in
  dt ← Py.truediv 1 120;
  let self := set_sim (SimulationCfg.set_dt dt (sim self)) self in
  let self :=
    set_sim (SimulationCfg.set_gravity (0.0, 0.0, -9.8)%float (sim self)) self in
  let self := set_sim (SimulationCfg.set_render_interval 2 (sim self)) self in
  let self := set_sim (SimulationCfg.set_use_fabric true (sim self)) self in
  Some self.

(** The fields as the class body and the base class give them, before
    the hook runs. *)
Definition defaults (base : inherited Host)
    (CARTPOLE_CFG : ArticulationCfg.t Host) : t Host :=
  {| viewer := default_viewer base;
     sim := default_sim base;
     decimation := default_decimation base;
     episode_length_s := default_episode_length_s base;
     scene := CartpoleDoubleSceneCfg CARTPOLE_CFG 4096 2.8;
     observations :=
       ObservationsCfg (ObsGroup_enable_corruption base)
         (ObsGroup_concatenate_terms base);
     actions := ActionsCfg;
     events := EventCfg;
     curriculum := CurriculumCfg;
     rewards := RewardsCfg;
     terminations := TerminationsCfg;
     commands := CommandsCfg;
     other := default_other base |}.

(** [CartpoleDoubleEnvCfg()]: defaults, then the hook. *)
Definition new (base : inherited Host)
    (CARTPOLE_CFG : ArticulationCfg.t Host) : option (t Host) :=
  __post_init__ (defaults base CARTPOLE_CFG).

End Class.

End CartpoleDoubleEnvCfg.

(** ** Evaluating the reward terms *)

(** Modelled from the spec: the reward manager of the host framework is not
    in this module.  The contract is reward = sum over the declared terms of
    weight times term value: at a step, the term declared under attribute [n]
    has value [term_value n], it contributes its weight times that value, and
    the contributions are added up.  A weight that is not a finite number has
    no real value, and then neither has the sum. *)
Fixpoint reward (terms : attrs RewTerm.t) (term_value : string -> Q) : option Q :=
  match terms with
  | [] => Some 0%Q
  | (n, t) :: rest =>
      w ← Py.float_to_Q (RewTerm.weight t);
      s ← reward rest term_value;
      Some (w * term_value n + s)%Q
  end.

(** ** Predicates used in the statements *)

(** The float [w] is finite and stands for exactly the rational [q]. *)
Definition float_is (w : float) (q : Q) : bool :=
  match Py.float_to_Q w with
  | Some q' => Qeq_bool q' q
  | None => false
  end.

(** The float [w] is a finite number other than zero. *)
Definition finite_nonzero (w : float) : bool :=
  PrimFloat.is_finite w && negb (PrimFloat.is_zero w)
  && match Py.float_to_Q w with
     | Some q => negb (Qeq_bool q 0)
     | None => false
     end.

Definition weight_of (n : string) (cls : attrs RewTerm.t) : option float :=
  RewTerm.weight <$> getattr n cls.

(** [t.params[k]], when [params] was passed and has the key. *)
Definition param {T : Type} (params : T -> option (gmap string ParamValue))
    (t : T) (k : string) : option ParamValue :=
  params t ≫= (fun d => d !! k).

(** A termination term that the source neither flags [time_out=True] nor
    builds from [mdp.time_out]. *)
Definition non_timeout (t : DoneTerm.t) : bool :=
  negb (mdp.func_eqb (DoneTerm.func t) mdp.time_out)
  && match DoneTerm.time_out t with
     | Some true => false
     | Some false | None => true
     end.

(** A parameter that is a range has equal ends, as values and under [==]. *)
Definition zero_width (v : ParamValue) : Prop :=
  match v with
  | PRange (lo, hi) => lo = hi /\ PrimFloat.eqb lo hi = true
  | PEntity _ | PFloat _ => True
  end.

(** ** Predicates used in the further properties *)

(** The attachment path of a scene entity. *)
Definition entity_prim_path {Host : Type} (e : SceneEntity Host) : string :=
  match e with
  | Articulation c => ArticulationCfg.prim_path c
  | AssetBase c => AssetBaseCfg.prim_path c
  | Sensor c => CameraCfg.prim_path c
  end.

(** The path carries the environment placeholder. *)
Definition per_environment (path : string) : bool :=
  match String.index 0 "{ENV_REGEX_NS}" path with
  | Some _ => true
  | None => false
  end.

(** The name is an attribute of the scene, and that attribute holds an
    articulation (the only kind of entity that has joints). *)
Definition resolves {Host : Type} (scene : InteractiveSceneCfg.t Host)
    (name : string) : bool :=
  match getattr name (InteractiveSceneCfg.entities scene) with
  | Some (Articulation _) => true
  | Some (AssetBase _) | Some (Sensor _) | None => false
  end.

(** [P] holds of every value of a [params] dictionary, if one was passed. *)
Definition params_all (P : ParamValue -> Prop)
    (params : option (gmap string ParamValue)) : Prop :=
  match params with
  | Some d => map_Forall (fun _ => P) d
  | None => True
  end.

(** A parameter that is an entity reference names an articulation of the
    scene. *)
Definition entity_resolves {Host : Type} (scene : InteractiveSceneCfg.t Host)
    (v : ParamValue) : Prop :=
  match v with
  | PEntity e => resolves scene (SceneEntityCfg.name e) = true
  | PRange _ | PFloat _ => True
  end.

(** A parameter that is an entity reference either names no joint or names
    exactly one, taken from [known]. *)
Definition one_joint_of (known : list string) (v : ParamValue) : Prop :=
  match v with
  | PEntity e =>
      match SceneEntityCfg.joint_names e with
      | None => True
      | Some js => exists j, js = [j] /\ In j known
      end
  | PRange _ | PFloat _ => True
  end.

(** A parameter that is a range has finite ends, the low one not above the
    high one. *)
Definition ordered_range (v : ParamValue) : Prop :=
  match v with
  | PRange (lo, hi) =>
      PrimFloat.is_finite lo = true
      /\ PrimFloat.is_finite hi = true
      /\ PrimFloat.leb lo hi = true
  | PEntity _ | PFloat _ => True
  end.

(** The reward terms built from function [f] that can read joint [j]: a
    term is left out only when it passes an entity with an explicit joint
    list and [j] is not in that list.  A term that passes no entity, or an
    entity without a joint list, is not restricted to any joint. *)
Definition terms_reading (f : mdp.func) (j : string) (cls : attrs RewTerm.t)
  : list string :=
  names
    (List.filter
       (fun nt =>
          mdp.func_eqb (RewTerm.func nt.2) f
          && match param RewTerm.params nt.2 "asset_cfg" with
             | Some (PEntity e) =>
                 match SceneEntityCfg.joint_names e with
                 | Some js => bool_decide (j ∈ js)
                 | None => true
                 end
             | Some (PRange _) | Some (PFloat _) | None => true
             end)
       cls).

(** ** Literals *)

(** Python reads [-x] as unary minus applied to the literal [x]; that is the
    double written here as a negative literal. *)
Lemma negative_literals :
  (-800.0)%float = PrimFloat.opp 800.0
  /\ (-30.0)%float = PrimFloat.opp 30.0
  /\ (-10.0)%float = PrimFloat.opp 10.0
  /\ (-5.0)%float = PrimFloat.opp 5.0
  /\ (-1.24)%float = PrimFloat.opp 1.24
  /\ (-9.8)%float = PrimFloat.opp 9.8.
Proof. repeat split. Qed.

(** ** Construction of the bundle *)

Section Construction.
Context {Host : Type}.
Implicit Types (self : ManagerBasedRLEnvCfg.t Host).
Implicit Types (base : ManagerBasedRLEnvCfg.inherited Host).
Implicit Types (CARTPOLE_CFG : ArticulationCfg.t Host).

Import ManagerBasedRLEnvCfg.

(** The hook cannot fail: the divisor is the literal 120. *)
Lemma post_init_total self :
  exists self', CartpoleDoubleEnvCfg.__post_init__ self = Some self'.
Proof. unfold CartpoleDoubleEnvCfg.__post_init__. simpl. eauto. Qed.

(** The fields the hook writes, whatever they held before. *)
Lemma post_init_writes self self' :
  CartpoleDoubleEnvCfg.__post_init__ self = Some self' ->
  decimation self' = 1%Z
  /\ episode_length_s self' = Py.Int 10
  /\ ViewerCfg.eye (viewer self') = (1.4, 0.0, 2.8)%float
  /\ ViewerCfg.lookat (viewer self') = (-10.0, 0.0, 0.0)%float
  /\ Some (SimulationCfg.dt (sim self')) = Py.truediv 1 120
  /\ SimulationCfg.gravity (sim self') = (0.0, 0.0, -9.8)%float
  /\ SimulationCfg.render_interval (sim self') = 2%Z
  /\ SimulationCfg.use_fabric (sim self') = true.
Proof.
  unfold CartpoleDoubleEnvCfg.__post_init__. simpl.
  intros E. injection E as <-. simpl. repeat split.
Qed.

(** The fields the hook leaves alone. *)
Lemma post_init_frame self self' :
  CartpoleDoubleEnvCfg.__post_init__ self = Some self' ->
  scene self' = scene self
  /\ observations self' = observations self
  /\ actions self' = actions self
  /\ events self' = events self
  /\ curriculum self' = curriculum self
  /\ rewards self' = rewards self
  /\ terminations self' = terminations self
  /\ commands self' = commands self
  /\ other self' = other self
  /\ ViewerCfg.other (viewer self') = ViewerCfg.other (viewer self)
  /\ SimulationCfg.other (sim self') = SimulationCfg.other (sim self).
Proof.
  unfold CartpoleDoubleEnvCfg.__post_init__. simpl.
  intros E. injection E as <-. simpl. repeat split.
Qed.

(** Construction returns a bundle. *)
Lemma new_total base CARTPOLE_CFG :
  exists cfg, CartpoleDoubleEnvCfg.new base CARTPOLE_CFG = Some cfg.
Proof. apply post_init_total. Qed.

(** What the bundle holds in the fields the class body declares. *)
Lemma new_declared base CARTPOLE_CFG cfg :
  CartpoleDoubleEnvCfg.new base CARTPOLE_CFG = Some cfg ->
  scene cfg = CartpoleDoubleSceneCfg CARTPOLE_CFG 4096 2.8
  /\ observations cfg =
       ObservationsCfg (ObsGroup_enable_corruption base)
         (ObsGroup_concatenate_terms base)
  /\ actions cfg = ActionsCfg
  /\ events cfg = EventCfg
  /\ rewards cfg = RewardsCfg
  /\ terminations cfg = TerminationsCfg.
Proof.
  intros E. apply post_init_frame in E.
  destruct E as (Hs & Ho & Ha & He & _ & Hr & Ht & _).
  rewrite Hs, Ho, Ha, He, Hr, Ht. repeat split.
Qed.

End Construction.

(** ** Attribute lookup *)

Lemma getattr_In {A : Type} (n : string) (cls : attrs A) (a : A) :
  getattr n cls = Some a -> In (n, a) cls.
Proof.
  induction cls as [|[k x] rest IH]; simpl; [discriminate|].
  destruct (String.eqb_spec k n) as [->|Hne].
  - intros [= ->]. now left.
  - intros E. right. now apply IH.
Qed.

Lemma getattr_Forall {A : Type} (P : string * A -> Prop) (n : string) (cls : attrs A) (a : A) :
  Forall P cls -> getattr n cls = Some a -> P (n, a).
Proof.
  induction 1 as [|[k x] rest Hx _ IH]; simpl; [discriminate|].
  destruct (String.eqb_spec k n) as [->|Hne]; [|exact IH].
  now intros [= <-].
Qed.

(** ** The weighted sum *)

Section WeightedSum.
Implicit Types (terms : attrs RewTerm.t) (v : string -> Q) (n : string).

(** The sum only reads the values of the declared terms. *)
Lemma reward_ext terms v v' :
  (forall m, In m (names terms) -> v' m = v m) ->
  reward terms v' = reward terms v.
Proof.
  induction terms as [|[k u] rest IH]; simpl; intros Hagree; [reflexivity|].
  rewrite IH by (intros m Hm; apply Hagree; now right).
  rewrite (Hagree k) by now left.
  reflexivity.
Qed.

(** With finite weights the sum has a value. *)
Lemma reward_total terms v :
  Forall (fun nt => is_Some (Py.float_to_Q (RewTerm.weight nt.2))) terms ->
  is_Some (reward terms v).
Proof.
  induction 1 as [|[k u] rest [w Hw] _ [s Hs]]; simpl in *.
  - eauto.
  - rewrite Hw, Hs. simpl. eauto.
Qed.

(** Terms are coupled by addition only: moving the value of one term by
    some amount moves the sum by the weight of that term times the
    amount, whatever the other terms are worth. *)
Lemma reward_separable terms v v' n t w r r' :
  NoDup (names terms) ->
  getattr n terms = Some t ->
  (forall m, m <> n -> v' m = v m) ->
  Py.float_to_Q (RewTerm.weight t) = Some w ->
  reward terms v = Some r ->
  reward terms v' = Some r' ->
  (r' - r == w * (v' n - v n))%Q.
Proof.
  induction terms as [|[k u] rest IH] in r, r' |- *; simpl; [discriminate|].
  intros Hnd Hget Hagree Hw.
  apply NoDup_cons in Hnd as [Hk Hnd].
  destruct (String.eqb_spec k n) as [->|Hne].
  - injection Hget as ->. rewrite Hw. simpl.
    rewrite (reward_ext rest v v').
    + destruct (reward rest v) as [s|]; simpl; [|discriminate].
      intros [= <-] [= <-]. ring.
    + intros m Hm. apply Hagree. intros ->. apply Hk.
      apply list_elem_of_In. exact Hm.
  - destruct (Py.float_to_Q (RewTerm.weight u)) as [wk|]; simpl; [|discriminate].
    destruct (reward rest v) as [s|] eqn:Es; simpl; [|discriminate].
    destruct (reward rest v') as [s'|] eqn:Es'; simpl; [|discriminate].
    intros [= <-] [= <-].
    rewrite (Hagree k Hne).
    assert (Hs : (s' - s == w * (v' n - v n))%Q)
      by (apply IH; auto).
    rewrite <- Hs. ring.
Qed.

End WeightedSum.

(** ** Rewards *)

(** Replace the exact value of each literal weight by the rational it
    computes to. *)
Ltac eval_weights :=
  repeat match goal with
    | |- context [Py.float_to_Q ?f] =>
        let q := eval vm_compute in (Py.float_to_Q f) in
        change (Py.float_to_Q f) with q
    end.

Lemma RewardsCfg_names :
  names RewardsCfg =
    ["alive"; "terminating"; "pole_pos"; "pole_pos_double";
     "cart_vel"; "pole_vel"; "cart_pos"].
Proof. reflexivity. Qed.

Lemma RewardsCfg_NoDup : NoDup (names RewardsCfg).
Proof. rewrite RewardsCfg_names. apply NoDup_ListNoDup. repeat constructor; simpl; intuition discriminate. Qed.

Lemma RewardsCfg_weights_finite :
  Forall (fun nt => is_Some (Py.float_to_Q (RewTerm.weight nt.2))) RewardsCfg.
Proof. repeat constructor; vm_compute; eauto. Qed.

(** C1: in the constructed bundle the reward terms weigh alive = 250,
    terminating = -800, pole_pos = -30, pole_pos_double = -30, cart_vel = -10,
    pole_vel = -10, cart_pos = -5, each as the float the source writes and as
    the exact number it stands for; and the weight of every declared reward
    term is a finite number other than zero. *)
Theorem C1_reward_weights {Host : Type}
    (base : ManagerBasedRLEnvCfg.inherited Host)
    (CARTPOLE_CFG : ArticulationCfg.t Host) :
  exists cfg,
    CartpoleDoubleEnvCfg.new base CARTPOLE_CFG = Some cfg
    /\ let rewards := ManagerBasedRLEnvCfg.rewards cfg in
       weight_of "alive" rewards = Some 250.0%float
       /\ weight_of "terminating" rewards = Some (-800.0)%float
       /\ weight_of "pole_pos" rewards = Some (-30.0)%float
       /\ weight_of "pole_pos_double" rewards = Some (-30.0)%float
       /\ weight_of "cart_vel" rewards = Some (-10.0)%float
       /\ weight_of "pole_vel" rewards = Some (-10.0)%float
       /\ weight_of "cart_pos" rewards = Some (-5.0)%float
       /\ float_is 250.0 250 = true
       /\ float_is (-800.0) (-800) = true
       /\ float_is (-30.0) (-30) = true
       /\ float_is (-10.0) (-10) = true
       /\ float_is (-5.0) (-5) = true
       /\ Forall (fun nt => finite_nonzero (RewTerm.weight nt.2) = true) rewards.
Proof.
  destruct (new_total base CARTPOLE_CFG) as [cfg E].
  exists cfg. split; [exact E|].
  apply new_declared in E. destruct E as (_ & _ & _ & _ & -> & _).
  cbv zeta. repeat split; try (vm_compute; reflexivity).
  repeat constructor; vm_compute; reflexivity.
Qed.

(** C2, as stated, fails: the class declares seven reward terms, not six. *)
Lemma C2_not_six_terms : length RewardsCfg <> 6%nat.
Proof. simpl. discriminate. Qed.

(** C2, amended: the reward specification consists of exactly seven weighted
    terms (alive, terminating, pole_pos, pole_pos_double, cart_vel, pole_vel,
    cart_pos); at every step their sum is
    250 a - 800 t - 30 p - 30 pd - 10 cv - 10 pv - 5 cp for the term values
    a, t, p, pd, cv, pv, cp; and the terms meet in the sum only: when one
    term [n] changes its value and the others keep theirs, the reward moves
    by the weight of [n] times the change. *)
Theorem C2_seven_additive_terms (v v' : string -> Q) (n : string) (t : RewTerm.t)
    (Hn : getattr n RewardsCfg = Some t)
    (Hothers : forall m, m <> n -> v' m = v m) :
  length RewardsCfg = 7%nat
  /\ names RewardsCfg =
       ["alive"; "terminating"; "pole_pos"; "pole_pos_double";
        "cart_vel"; "pole_vel"; "cart_pos"]
  /\ exists r r' w,
       reward RewardsCfg v = Some r
       /\ reward RewardsCfg v' = Some r'
       /\ Py.float_to_Q (RewTerm.weight t) = Some w
       /\ (r == 250 * v "alive" + -800 * v "terminating"
               + -30 * v "pole_pos" + -30 * v "pole_pos_double"
               + -10 * v "cart_vel" + -10 * v "pole_vel"
               + -5 * v "cart_pos")%Q
       /\ (r' - r == w * (v' n - v n))%Q.
Proof.
  split; [reflexivity|]. split; [reflexivity|].
  destruct (reward_total RewardsCfg v RewardsCfg_weights_finite) as [r Hr].
  destruct (reward_total RewardsCfg v' RewardsCfg_weights_finite) as [r' Hr'].
  assert (Hw : is_Some (Py.float_to_Q (RewTerm.weight t)))
    by exact (getattr_Forall _ n RewardsCfg t RewardsCfg_weights_finite Hn).
  destruct Hw as [w Hw].
  exists r, r', w. repeat split; try assumption.
  - revert Hr. unfold RewardsCfg. cbn [reward RewTerm.weight].
    eval_weights. simpl. intros [= <-]. ring.
  - eapply reward_separable; eauto using RewardsCfg_NoDup.
Qed.

(** C2 at a concrete step: only [alive] changes, from 0 to 1, and the reward
    moves by the weight of [alive]. *)
Lemma C2_seven_additive_terms_witness :
  let v : string -> Q := fun _ => 0%Q in
  let v' : string -> Q := fun m => if String.eqb m "alive" then 1%Q else 0%Q in
  (forall m, m <> "alive" -> v' m = v m)
  /\ exists r r' w,
       reward RewardsCfg v = Some r
       /\ reward RewardsCfg v' = Some r'
       /\ weight_of "alive" RewardsCfg ≫= Py.float_to_Q = Some w
       /\ (r' - r == w * (1 - 0))%Q.
Proof.
  intros v v'.
  assert (Hothers : forall m, m <> "alive" -> v' m = v m).
  { intros m Hm. unfold v', v.
    destruct (String.eqb_spec m "alive"); [contradiction|reflexivity]. }
  split; [exact Hothers|].
  destruct (C2_seven_additive_terms v v' "alive"
              {| RewTerm.func := mdp.is_alive;
                 RewTerm.weight := 250.0;
                 RewTerm.params := None |} eq_refl Hothers)
    as (_ & _ & r & r' & w & Hr & Hr' & Hw & _ & Hd).
  exists r, r', w. repeat split; assumption.
Defined.

(** ** Actions *)

(** C3: the actions of the bundle are the one term [joint_effort], a
    joint-effort action on the entity "robot", on the single joint
    "RailToCart", with scale 10.0 (the float, equal to 10.0 under [==], and
    exactly the number ten). *)
Theorem C3_single_joint_effort_action {Host : Type}
    (base : ManagerBasedRLEnvCfg.inherited Host)
    (CARTPOLE_CFG : ArticulationCfg.t Host) :
  exists cfg,
    CartpoleDoubleEnvCfg.new base CARTPOLE_CFG = Some cfg
    /\ ManagerBasedRLEnvCfg.actions cfg = ActionsCfg
    /\ length ActionsCfg = 1%nat
    /\ names ActionsCfg = ["joint_effort"]
    /\ exists t,
         getattr "joint_effort" ActionsCfg = Some t
         /\ mdp.asset_name t = "robot"
         /\ mdp.joint_names t = ["RailToCart"]
         /\ mdp.scale t = 10.0%float
         /\ PrimFloat.eqb (mdp.scale t) 10.0 = true
         /\ float_is (mdp.scale t) 10 = true.
Proof.
  destruct (new_total base CARTPOLE_CFG) as [cfg E].
  exists cfg. split; [exact E|].
  apply new_declared in E. destruct E as (_ & _ & Ha & _).
  split; [exact Ha|].
  split; [reflexivity|]. split; [reflexivity|].
  eexists. split; [reflexivity|]. simpl.
  repeat split; vm_compute; reflexivity.
Qed.

(** ** Terminations *)

(** C4: the terminations are the two terms [time_out] and
    [cart_out_of_bounds], in that order; [time_out] is flagged
    [time_out=True]; [cart_out_of_bounds] looks at joint "RailToCart" of
    "robot" with bounds (-1.24, 1.24), the floats of the source, equal under
    [==]; and [cart_out_of_bounds] is a condition other than the timeout. *)
Theorem C4_two_terminations {Host : Type}
    (base : ManagerBasedRLEnvCfg.inherited Host)
    (CARTPOLE_CFG : ArticulationCfg.t Host) :
  exists cfg,
    CartpoleDoubleEnvCfg.new base CARTPOLE_CFG = Some cfg
    /\ ManagerBasedRLEnvCfg.terminations cfg = TerminationsCfg
    /\ length TerminationsCfg = 2%nat
    /\ names TerminationsCfg = ["time_out"; "cart_out_of_bounds"]
    /\ (exists t,
          getattr "time_out" TerminationsCfg = Some t
          /\ DoneTerm.func t = mdp.time_out
          /\ DoneTerm.time_out t = Some true
          /\ non_timeout t = false)
    /\ (exists t,
          getattr "cart_out_of_bounds" TerminationsCfg = Some t
          /\ DoneTerm.func t = mdp.joint_pos_out_of_manual_limit
          /\ param DoneTerm.params t "asset_cfg" =
               Some (PEntity {| SceneEntityCfg.name := "robot";
                                SceneEntityCfg.joint_names := Some ["RailToCart"] |})
          /\ param DoneTerm.params t "bounds" = Some (PRange (-1.24, 1.24)%float)
          /\ Py.pair_eqb (-1.24, 1.24)%float
               (PrimFloat.opp 0x1.3d70a3d70a3d7p+0, 0x1.3d70a3d70a3d7p+0)%float = true
          /\ non_timeout t = true)
    /\ Exists (fun nt => non_timeout nt.2 = true) TerminationsCfg.
Proof.
  destruct (new_total base CARTPOLE_CFG) as [cfg E].
  exists cfg. split; [exact E|].
  apply new_declared in E. destruct E as (_ & _ & _ & _ & _ & Ht).
  split; [exact Ht|].
  split; [reflexivity|]. split; [reflexivity|].
  split; [|split].
  - eexists. split; [reflexivity|]. simpl. repeat split.
  - eexists. split; [reflexivity|].
    repeat split; vm_compute; reflexivity.
  - apply Exists_cons_tl, Exists_cons_hd. reflexivity.
Qed.

(** ** Events *)

Lemma dict_Forall {V : Type} (P : string -> V -> Prop) (items : list (string * V)) :
  Forall (fun kv => P kv.1 kv.2) items -> map_Forall P (Py.dict items).
Proof.
  unfold Py.dict.
  assert (G : forall (m : gmap string V),
             map_Forall P m ->
             Forall (fun kv => P kv.1 kv.2) items ->
             map_Forall P (fold_left (fun m kv => <[kv.1 := kv.2]> m) items m)).
  { induction items as [|[k x] rest IH]; simpl; intros m Hm HF; [exact Hm|].
    apply Forall_cons in HF as [Hx HF].
    apply IH; [|exact HF]. apply map_Forall_insert_2; assumption. }
  apply G. apply map_Forall_empty.
Qed.

(** [math.pi] is the double next to pi: its exact value, and sixteen digits. *)
Lemma math_pi_value :
  float_is Py.math_pi (884279719003555 # 281474976710656) = true
  /\ (3141592653589793 # 1000000000000000 < 884279719003555 # 281474976710656)%Q
  /\ (884279719003555 # 281474976710656 < 3141592653589794 # 1000000000000000)%Q.
Proof. split; [vm_compute; reflexivity|]. split; reflexivity. Qed.

(** C5: the events are three terms, all of mode "reset", in the order
    [reset_to_default], [reset_pole_position], [reset_pole_double_position]:
    the first resets the joints of "robot" to default and names no joint (so
    all of them); the second resets joint "CartToPole" with position range
    (math.pi, math.pi) and velocity range (0.0, 0.0); the third resets joint
    "PoleToDouble" with position range (0.0, 0.0) and velocity range
    (0.0, 0.0); and every range among their parameters has low == high.
    Here [math.pi] is the double 0x1.921fb54442d18p+1, whose exact value
    lies between 3.141592653589793 and 3.141592653589794, so both ends of
    the first position range are pi to fifteen decimals. *)
Theorem C5_reset_events {Host : Type}
    (base : ManagerBasedRLEnvCfg.inherited Host)
    (CARTPOLE_CFG : ArticulationCfg.t Host) :
  exists cfg,
    CartpoleDoubleEnvCfg.new base CARTPOLE_CFG = Some cfg
    /\ ManagerBasedRLEnvCfg.events cfg = EventCfg
    /\ length EventCfg = 3%nat
    /\ Forall (fun nt => EventTerm.mode nt.2 = "reset") EventCfg
    /\ (exists t,
          EventCfg !! 0%nat = Some ("reset_to_default", t)
          /\ EventTerm.func t = mdp.reset_joints_to_default
          /\ param EventTerm.params t "asset_cfg" =
               Some (PEntity {| SceneEntityCfg.name := "robot";
                                SceneEntityCfg.joint_names := None |})
          /\ param EventTerm.params t "position_range" = None
          /\ param EventTerm.params t "velocity_range" = None)
    /\ (exists t,
          EventCfg !! 1%nat = Some ("reset_pole_position", t)
          /\ EventTerm.func t = mdp.reset_joints_by_offset
          /\ param EventTerm.params t "asset_cfg" =
               Some (PEntity {| SceneEntityCfg.name := "robot";
                                SceneEntityCfg.joint_names := Some ["CartToPole"] |})
          /\ param EventTerm.params t "position_range" =
               Some (PRange (Py.math_pi, Py.math_pi))
          /\ param EventTerm.params t "position_range" =
               Some (PRange (0x1.921fb54442d18p+1, 0x1.921fb54442d18p+1)%float)
          /\ (exists lo hi qlo qhi,
                param EventTerm.params t "position_range" = Some (PRange (lo, hi))
                /\ Py.float_to_Q lo = Some qlo
                /\ Py.float_to_Q hi = Some qhi
                /\ (3141592653589793 # 1000000000000000 < qlo)%Q
                /\ (qlo < 3141592653589794 # 1000000000000000)%Q
                /\ (3141592653589793 # 1000000000000000 < qhi)%Q
                /\ (qhi < 3141592653589794 # 1000000000000000)%Q)
          /\ param EventTerm.params t "velocity_range" =
               Some (PRange (0.0, 0.0)%float))
    /\ (exists t,
          EventCfg !! 2%nat = Some ("reset_pole_double_position", t)
          /\ EventTerm.func t = mdp.reset_joints_by_offset
          /\ param EventTerm.params t "asset_cfg" =
               Some (PEntity {| SceneEntityCfg.name := "robot";
                                SceneEntityCfg.joint_names := Some ["PoleToDouble"] |})
          /\ param EventTerm.params t "position_range" =
               Some (PRange (0.0, 0.0)%float)
          /\ param EventTerm.params t "velocity_range" =
               Some (PRange (0.0, 0.0)%float))
    /\ Forall (fun nt => exists d, EventTerm.params nt.2 = Some d
                                   /\ map_Forall (fun _ => zero_width) d) EventCfg.
Proof.
  destruct (new_total base CARTPOLE_CFG) as [cfg E].
  exists cfg. split; [exact E|].
  apply new_declared in E. destruct E as (_ & _ & _ & He & _).
  split; [exact He|]. split; [reflexivity|].
  split; [repeat constructor|].
  split; [|split; [|split]].
  - eexists. split; [reflexivity|]. repeat split; vm_compute; reflexivity.
  - eexists. split; [reflexivity|].
    split; [reflexivity|]. split; [vm_compute; reflexivity|].
    split; [vm_compute; reflexivity|]. split; [vm_compute; reflexivity|].
    split; [|vm_compute; reflexivity].
    do 4 eexists. split; [vm_compute; reflexivity|].
    split; [vm_compute; reflexivity|]. split; [vm_compute; reflexivity|].
    repeat split.
  - eexists. split; [reflexivity|]. repeat split; vm_compute; reflexivity.
  - repeat apply Forall_cons_2; [| | |apply Forall_nil_2];
      (eexists; split; [reflexivity|];
       apply dict_Forall; repeat constructor).
Qed.

(** ** Post-construction overwrites *)

Lemma truediv_1_120 : Py.truediv 1 120 = Some 0x1.1111111111111p-7%float.
Proof. reflexivity. Qed.

(** C6: whatever the inherited defaults are, construction returns a bundle
    in which the hook has had the last word: decimation 1, episode length
    10, simulation step [1 / 120] (the double 0x1.1111111111111p-7), gravity
    (0.0, 0.0, -9.8), render interval 2, fabric on, viewer eye
    (1.4, 0.0, 2.8) and lookat (-10.0, 0.0, 0.0); what the hook does not
    write in the viewer, the simulation and the base class keeps its
    default. *)
Theorem C6_post_init_overwrites {Host : Type}
    (base : ManagerBasedRLEnvCfg.inherited Host)
    (CARTPOLE_CFG : ArticulationCfg.t Host) :
  exists cfg,
    CartpoleDoubleEnvCfg.new base CARTPOLE_CFG = Some cfg
    /\ ManagerBasedRLEnvCfg.decimation cfg = 1%Z
    /\ ManagerBasedRLEnvCfg.episode_length_s cfg = Py.Int 10
    /\ Py.num_eqb (ManagerBasedRLEnvCfg.episode_length_s cfg) (Py.Float 10.0) = true
    /\ (let sim := ManagerBasedRLEnvCfg.sim cfg in
        Py.truediv 1 120 = Some (SimulationCfg.dt sim)
        /\ SimulationCfg.dt sim = 0x1.1111111111111p-7%float
        /\ PrimFloat.eqb (SimulationCfg.dt sim) (PrimFloat.div 1 120) = true
        /\ SimulationCfg.gravity sim = (0.0, 0.0, -9.8)%float
        /\ SimulationCfg.render_interval sim = 2%Z
        /\ SimulationCfg.use_fabric sim = true
        /\ SimulationCfg.other sim =
             SimulationCfg.other (ManagerBasedRLEnvCfg.default_sim base))
    /\ (let viewer := ManagerBasedRLEnvCfg.viewer cfg in
        ViewerCfg.eye viewer = (1.4, 0.0, 2.8)%float
        /\ ViewerCfg.lookat viewer = (-10.0, 0.0, 0.0)%float
        /\ ViewerCfg.other viewer =
             ViewerCfg.other (ManagerBasedRLEnvCfg.default_viewer base))
    /\ ManagerBasedRLEnvCfg.other cfg = ManagerBasedRLEnvCfg.default_other base.
Proof.
  destruct (new_total base CARTPOLE_CFG) as [cfg E].
  exists cfg. split; [exact E|].
  unfold CartpoleDoubleEnvCfg.new in E.
  pose proof (post_init_writes _ _ E)
    as (Hdec & Hlen & Heye & Hlook & Hdt & Hg & Hri & Hfab).
  pose proof (post_init_frame _ _ E)
    as (_ & _ & _ & _ & _ & _ & _ & _ & Hother & Hvo & Hso).
  rewrite truediv_1_120 in Hdt. injection Hdt as Hdt.
  cbv zeta. rewrite Hdec, Hlen, Heye, Hlook, Hdt, Hg, Hri, Hfab, Hother, Hvo, Hso.
  repeat split.
Qed.

(** ** Observations *)

(** C7: the observations are the one group [policy]; its terms are
    [joint_pos_rel] then [joint_vel_rel], built from the functions of the
    same names; terms are concatenated and corruption is off, whatever the
    defaults inherited from the group base class; and two constructions,
    from any inherited defaults and any robot template, give the same
    observations, so the same order of terms. *)
Theorem C7_policy_observations {Host : Type}
    (base base' : ManagerBasedRLEnvCfg.inherited Host)
    (CARTPOLE_CFG CARTPOLE_CFG' : ArticulationCfg.t Host) :
  exists cfg cfg',
    CartpoleDoubleEnvCfg.new base CARTPOLE_CFG = Some cfg
    /\ CartpoleDoubleEnvCfg.new base' CARTPOLE_CFG' = Some cfg'
    /\ ManagerBasedRLEnvCfg.observations cfg = ManagerBasedRLEnvCfg.observations cfg'
    /\ names (ManagerBasedRLEnvCfg.observations cfg) = ["policy"]
    /\ exists policy,
         getattr "policy" (ManagerBasedRLEnvCfg.observations cfg) = Some policy
         /\ names (ObsGroup.terms policy) = ["joint_pos_rel"; "joint_vel_rel"]
         /\ map (fun nt => ObsTerm.func nt.2) (ObsGroup.terms policy) =
              [mdp.joint_pos_rel; mdp.joint_vel_rel]
         /\ ObsGroup.concatenate_terms policy = true
         /\ ObsGroup.enable_corruption policy = false.
Proof.
  destruct (new_total base CARTPOLE_CFG) as [cfg E].
  destruct (new_total base' CARTPOLE_CFG') as [cfg' E'].
  exists cfg, cfg'. split; [exact E|]. split; [exact E'|].
  apply new_declared in E. destruct E as (_ & -> & _).
  apply new_declared in E'. destruct E' as (_ & -> & _).
  split; [reflexivity|]. split; [reflexivity|].
  eexists. split; [reflexivity|]. repeat split.
Qed.

(** ** Scene *)

(** C8: the scene of the bundle has [num_envs] 4096 and [env_spacing] 2.8;
    its robot is the template [CARTPOLE_CFG] with the attachment path
    replaced by "{ENV_REGEX_NS}/Robot", a path that starts with the
    placeholder "{ENV_REGEX_NS}", and with everything else of the template
    kept. *)
Theorem C8_scene_replication_and_robot_path {Host : Type}
    (base : ManagerBasedRLEnvCfg.inherited Host)
    (CARTPOLE_CFG : ArticulationCfg.t Host) :
  exists cfg,
    CartpoleDoubleEnvCfg.new base CARTPOLE_CFG = Some cfg
    /\ let scene := ManagerBasedRLEnvCfg.scene cfg in
       InteractiveSceneCfg.num_envs scene = 4096%Z
       /\ InteractiveSceneCfg.env_spacing scene = 2.8%float
       /\ PrimFloat.eqb (InteractiveSceneCfg.env_spacing scene) 2.8 = true
       /\ exists robot,
            getattr "robot" (InteractiveSceneCfg.entities scene) =
              Some (Articulation robot)
            /\ robot = ArticulationCfg.replace CARTPOLE_CFG "{ENV_REGEX_NS}/Robot"
            /\ ArticulationCfg.prim_path robot = "{ENV_REGEX_NS}/Robot"
            /\ String.index 0 "{ENV_REGEX_NS}" (ArticulationCfg.prim_path robot) =
                 Some 0%nat
            /\ ArticulationCfg.other robot = ArticulationCfg.other CARTPOLE_CFG.
Proof.
  destruct (new_total base CARTPOLE_CFG) as [cfg E].
  exists cfg. split; [exact E|].
  apply new_declared in E. destruct E as (-> & _).
  cbv zeta. split; [reflexivity|]. split; [reflexivity|]. split; [reflexivity|].
  eexists. split; [reflexivity|]. repeat split.
Qed.

(** C10: the entities of the scene of the bundle are the robot
    articulation, a dome light and a distant light, in that order, and none
    of them is a sensor: the bundle holds no camera.  Construction is a pure
    function, it never runs the stage-editing [create_camera]. *)
Theorem C10_scene_has_no_camera {Host : Type}
    (base : ManagerBasedRLEnvCfg.inherited Host)
    (CARTPOLE_CFG : ArticulationCfg.t Host) :
  exists cfg,
    CartpoleDoubleEnvCfg.new base CARTPOLE_CFG = Some cfg
    /\ let entities :=
         InteractiveSceneCfg.entities (ManagerBasedRLEnvCfg.scene cfg) in
       names entities = ["robot"; "dome_light"; "distant_light"]
       /\ forallb (fun nt => negb (is_sensor nt.2)) entities = true
       /\ (forall n c, getattr n entities <> Some (Sensor c))
       /\ (exists robot, getattr "robot" entities = Some (Articulation robot))
       /\ (exists light color intensity,
             getattr "dome_light" entities = Some (AssetBase light)
             /\ AssetBaseCfg.spawn light = sim_utils.DomeLightCfg color intensity)
       /\ (exists light color intensity,
             getattr "distant_light" entities = Some (AssetBase light)
             /\ AssetBaseCfg.spawn light = sim_utils.DistantLightCfg color intensity).
Proof.
  destruct (new_total base CARTPOLE_CFG) as [cfg E].
  exists cfg. split; [exact E|].
  apply new_declared in E. destruct E as (-> & _).
  cbv zeta. split; [reflexivity|]. split; [reflexivity|].
  split; [|split; [|split]].
  - intros n c H. apply getattr_In in H. simpl in H.
    destruct H as [H|[H|[H|[]]]]; discriminate H.
  - eexists. reflexivity.
  - do 3 eexists. split; reflexivity.
  - do 3 eexists. split; reflexivity.
Qed.

(** ** The camera factory *)

Lemma create_camera_stage (st : Stage) :
  (create_camera st).2 =
    <["/World/Origin_01" := "Xform"]> (<["/World/Origin_00" := "Xform"]> st).
Proof. reflexivity. Qed.

(** The camera does not depend on the stage it is created on. *)
Lemma create_camera_camera (st : Stage) :
  (create_camera st).1 = (create_camera ∅).1.
Proof. reflexivity. Qed.

(** C9: on a stage that has neither "/World/Origin_00" nor
    "/World/Origin_01", the factory adds exactly two nodes, those two, both
    of type "Xform", and changes nothing else; the camera it returns has
    width 640, height 480, update period 0, data types ["rgb"] and a pinhole
    spawner with focal length 24.0, focus distance 400.0, horizontal
    aperture 20.955 and clipping range (0.1, 1.0e5). *)
Theorem C9_create_camera (st : Stage)
    (H00 : st !! "/World/Origin_00" = None)
    (H01 : st !! "/World/Origin_01" = None) :
  let camera := (create_camera st).1 in
  let st' := (create_camera st).2 in
  size st' = S (S (size st))
  /\ st' !! "/World/Origin_00" = Some "Xform"
  /\ st' !! "/World/Origin_01" = Some "Xform"
  /\ (forall p, p <> "/World/Origin_00" -> p <> "/World/Origin_01" ->
                st' !! p = st !! p)
  /\ CameraCfg.width (Camera.cfg camera) = 640%Z
  /\ CameraCfg.height (Camera.cfg camera) = 480%Z
  /\ CameraCfg.update_period (Camera.cfg camera) = Py.Int 0
  /\ Py.num_eqb (CameraCfg.update_period (Camera.cfg camera)) (Py.Float 0.0) = true
  /\ CameraCfg.data_types (Camera.cfg camera) = ["rgb"]
  /\ CameraCfg.spawn (Camera.cfg camera) =
       sim_utils.PinholeCameraCfg 24.0 400.0 20.955 (0.1, 1.0e5)%float
  /\ float_is 24.0 24 = true
  /\ float_is 400.0 400 = true
  /\ float_is 1.0e5 100000 = true.
Proof.
  intros camera st'. subst camera st'.
  rewrite create_camera_stage, create_camera_camera.
  split; [|split; [|split; [|split]]].
  - rewrite map_size_insert_None.
    + rewrite map_size_insert_None by exact H00. reflexivity.
    + rewrite lookup_insert_ne by discriminate. exact H01.
  - rewrite lookup_insert_ne by discriminate. apply lookup_insert_eq.
  - apply lookup_insert_eq.
  - intros p Hp0 Hp1.
    rewrite lookup_insert_ne by congruence.
    rewrite lookup_insert_ne by congruence. reflexivity.
  - repeat split; vm_compute; reflexivity.
Qed.

(** C9 on the empty stage. *)
Lemma C9_create_camera_witness :
  (∅ : Stage) !! "/World/Origin_00" = None
  /\ (∅ : Stage) !! "/World/Origin_01" = None
  /\ size (create_camera ∅).2 = 2%nat
  /\ CameraCfg.width (Camera.cfg (create_camera ∅).1) = 640%Z.
Proof.
  split; [apply lookup_empty|]. split; [apply lookup_empty|].
  destruct (C9_create_camera ∅ (lookup_empty _) (lookup_empty _))
    as (Hsize & _ & _ & _ & Hw & _).
  split; [|exact Hw].
  rewrite Hsize. rewrite map_size_empty. reflexivity.
Defined.

(** ** Further properties: the hooks *)

(** Running the hook of the bundle a second time changes nothing: on any
    configuration, hook after hook is the hook. *)
Theorem post_init_idempotent {Host : Type} (self : ManagerBasedRLEnvCfg.t Host) :
  CartpoleDoubleEnvCfg.__post_init__ self ≫= CartpoleDoubleEnvCfg.__post_init__
  = CartpoleDoubleEnvCfg.__post_init__ self.
Proof.
  destruct (post_init_total self) as [self' E]. rewrite E. simpl.
  unfold CartpoleDoubleEnvCfg.__post_init__ in *. simpl in *.
  injection E as <-. reflexivity.
Qed.

(** The bundle depends on the host defaults only through what no hook
    writes: two sets of inherited defaults that agree on the rest of the
    base class, of the viewer and of the simulation give the same bundle,
    whatever their decimation, episode length, eye, lookat, step, gravity,
    render interval, fabric flag and observation-group flags. *)
Theorem new_ignores_overwritten_defaults {Host : Type}
    (base base' : ManagerBasedRLEnvCfg.inherited Host)
    (CARTPOLE_CFG : ArticulationCfg.t Host)
    (Hother : ManagerBasedRLEnvCfg.default_other base =
              ManagerBasedRLEnvCfg.default_other base')
    (Hviewer : ViewerCfg.other (ManagerBasedRLEnvCfg.default_viewer base) =
               ViewerCfg.other (ManagerBasedRLEnvCfg.default_viewer base'))
    (Hsim : SimulationCfg.other (ManagerBasedRLEnvCfg.default_sim base) =
            SimulationCfg.other (ManagerBasedRLEnvCfg.default_sim base')) :
  CartpoleDoubleEnvCfg.new base CARTPOLE_CFG =
  CartpoleDoubleEnvCfg.new base' CARTPOLE_CFG.
Proof.
  destruct base as [[eye lookat vo] [dt g ri uf so] dec len o ec ct].
  destruct base' as [[eye' lookat' vo'] [dt' g' ri' uf' so'] dec' len' o' ec' ct'].
  simpl in Hother, Hviewer, Hsim. subst o' vo' so'.
  reflexivity.
Qed.

(** Two sets of defaults that differ in every field a hook writes. *)
Lemma new_ignores_overwritten_defaults_witness :
  let base : ManagerBasedRLEnvCfg.inherited unit :=
    {| ManagerBasedRLEnvCfg.default_viewer :=
         {| ViewerCfg.eye := (7.5, 7.5, 7.5)%float;
            ViewerCfg.lookat := (0.0, 0.0, 0.0)%float;
            ViewerCfg.other := tt |};
       ManagerBasedRLEnvCfg.default_sim :=
         {| SimulationCfg.dt := 0.0166%float;
            SimulationCfg.gravity := (0.0, 0.0, -9.81)%float;
            SimulationCfg.render_interval := 1;
            SimulationCfg.use_fabric := false;
            SimulationCfg.other := tt |};
       ManagerBasedRLEnvCfg.default_decimation := 4;
       ManagerBasedRLEnvCfg.default_episode_length_s := Py.Float 5.0;
       ManagerBasedRLEnvCfg.default_other := tt;
       ManagerBasedRLEnvCfg.ObsGroup_enable_corruption := true;
       ManagerBasedRLEnvCfg.ObsGroup_concatenate_terms := false |} in
  let base' : ManagerBasedRLEnvCfg.inherited unit :=
    {| ManagerBasedRLEnvCfg.default_viewer :=
         {| ViewerCfg.eye := (1.0, 2.0, 3.0)%float;
            ViewerCfg.lookat := (4.0, 5.0, 6.0)%float;
            ViewerCfg.other := tt |};
       ManagerBasedRLEnvCfg.default_sim :=
         {| SimulationCfg.dt := 0.005%float;
            SimulationCfg.gravity := (0.0, 0.0, 0.0)%float;
            SimulationCfg.render_interval := 8;
            SimulationCfg.use_fabric := true;
            SimulationCfg.other := tt |};
       ManagerBasedRLEnvCfg.default_decimation := 2;
       ManagerBasedRLEnvCfg.default_episode_length_s := Py.Int 30;
       ManagerBasedRLEnvCfg.default_other := tt;
       ManagerBasedRLEnvCfg.ObsGroup_enable_corruption := false;
       ManagerBasedRLEnvCfg.ObsGroup_concatenate_terms := true |} in
  let template : ArticulationCfg.t unit :=
    {| ArticulationCfg.prim_path := "/World/Template";
       ArticulationCfg.other := tt |} in
  ManagerBasedRLEnvCfg.default_decimation base <>
    ManagerBasedRLEnvCfg.default_decimation base'
  /\ CartpoleDoubleEnvCfg.new base template = CartpoleDoubleEnvCfg.new base' template.
Proof.
  intros base base' template. split; [discriminate|].
  apply (new_ignores_overwritten_defaults base base' template);
    reflexivity.
Defined.

(** The hook of the policy group, on any group: it keeps the terms and
    their order, it leaves corruption off and concatenation on whatever the
    flags were, and running it again changes nothing. *)
Theorem policy_post_init_keeps_terms (self : ObsGroup.t) :
  ObsGroup.terms (PolicyCfg.__post_init__ self) = ObsGroup.terms self
  /\ ObsGroup.enable_corruption (PolicyCfg.__post_init__ self) = false
  /\ ObsGroup.concatenate_terms (PolicyCfg.__post_init__ self) = true
  /\ PolicyCfg.__post_init__ (PolicyCfg.__post_init__ self) =
       PolicyCfg.__post_init__ self
  /\ (forall self' : ObsGroup.t,
        ObsGroup.terms self' = ObsGroup.terms self ->
        PolicyCfg.__post_init__ self' = PolicyCfg.__post_init__ self).
Proof.
  repeat split.
  intros self' Hterms. unfold PolicyCfg.__post_init__. simpl.
  rewrite Hterms. reflexivity.
Qed.

(** ** Further properties: consistency across the classes *)

(** Split a statement about all terms of a class into one goal per value of
    each [params] dictionary. *)
Ltac each_param :=
  repeat first
    [ apply Forall_nil_2
    | apply Forall_cons_2
    | exact I
    | apply dict_Forall ].

Ltac known_joint :=
  first [ exact I | hnf; eexists; split; [reflexivity|simpl; tauto] ].

(** Every entity that a term refers to exists: the asset of the action and
    every [SceneEntityCfg] among the parameters of the reward, termination
    and event terms name an attribute of the scene of the bundle, and that
    attribute is an articulation, whatever the robot template. *)
Theorem entity_references_resolve {Host : Type}
    (base : ManagerBasedRLEnvCfg.inherited Host)
    (CARTPOLE_CFG : ArticulationCfg.t Host) :
  exists cfg,
    CartpoleDoubleEnvCfg.new base CARTPOLE_CFG = Some cfg
    /\ let scene := ManagerBasedRLEnvCfg.scene cfg in
       Forall (fun nt => resolves scene (mdp.asset_name nt.2) = true)
         (ManagerBasedRLEnvCfg.actions cfg)
       /\ Forall (fun nt => params_all (entity_resolves scene) (RewTerm.params nt.2))
            (ManagerBasedRLEnvCfg.rewards cfg)
       /\ Forall (fun nt => params_all (entity_resolves scene) (DoneTerm.params nt.2))
            (ManagerBasedRLEnvCfg.terminations cfg)
       /\ Forall (fun nt => params_all (entity_resolves scene) (EventTerm.params nt.2))
            (ManagerBasedRLEnvCfg.events cfg).
Proof.
  destruct (new_total base CARTPOLE_CFG) as [cfg E].
  exists cfg. split; [exact E|].
  apply new_declared in E. destruct E as (-> & _ & -> & -> & -> & ->).
  cbv zeta. repeat split; each_param; try reflexivity.
Qed.

(** The terms talk about three joints only: each joint list among the
    parameters of the reward, termination and event terms, and the one of
    the action, holds exactly one joint, out of "RailToCart", "CartToPole"
    and "PoleToDouble"; and the joint the action drives is the joint whose
    position the out-of-bounds termination watches. *)
Theorem joints_of_the_terms {Host : Type}
    (base : ManagerBasedRLEnvCfg.inherited Host)
    (CARTPOLE_CFG : ArticulationCfg.t Host) :
  exists cfg,
    CartpoleDoubleEnvCfg.new base CARTPOLE_CFG = Some cfg
    /\ let known := ["RailToCart"; "CartToPole"; "PoleToDouble"] in
       Forall (fun nt => exists j, mdp.joint_names nt.2 = [j] /\ In j known)
         (ManagerBasedRLEnvCfg.actions cfg)
       /\ Forall (fun nt => params_all (one_joint_of known) (RewTerm.params nt.2))
            (ManagerBasedRLEnvCfg.rewards cfg)
       /\ Forall (fun nt => params_all (one_joint_of known) (DoneTerm.params nt.2))
            (ManagerBasedRLEnvCfg.terminations cfg)
       /\ Forall (fun nt => params_all (one_joint_of known) (EventTerm.params nt.2))
            (ManagerBasedRLEnvCfg.events cfg)
       /\ (exists action watched e,
             getattr "joint_effort" (ManagerBasedRLEnvCfg.actions cfg) = Some action
             /\ getattr "cart_out_of_bounds" (ManagerBasedRLEnvCfg.terminations cfg)
                = Some watched
             /\ param DoneTerm.params watched "asset_cfg" = Some (PEntity e)
             /\ SceneEntityCfg.joint_names e = Some (mdp.joint_names action)
             /\ SceneEntityCfg.name e = mdp.asset_name action).
Proof.
  destruct (new_total base CARTPOLE_CFG) as [cfg E].
  exists cfg. split; [exact E|].
  apply new_declared in E. destruct E as (_ & _ & -> & -> & -> & ->).
  cbv zeta. split; [|split; [|split; [|split]]].
  - each_param. simpl. eexists. split; [reflexivity|simpl; tauto].
  - each_param; known_joint.
  - each_param; known_joint.
  - each_param; known_joint.
  - do 3 eexists. split; [reflexivity|]. split; [reflexivity|].
    split; [vm_compute; reflexivity|]. split; reflexivity.
Qed.

(** Every range among the parameters of the event and termination terms has
    finite ends with low not above high; the out-of-bounds interval is
    symmetric about zero and has low strictly below high. *)
Theorem ranges_are_ordered {Host : Type}
    (base : ManagerBasedRLEnvCfg.inherited Host)
    (CARTPOLE_CFG : ArticulationCfg.t Host) :
  exists cfg,
    CartpoleDoubleEnvCfg.new base CARTPOLE_CFG = Some cfg
    /\ Forall (fun nt => params_all ordered_range (EventTerm.params nt.2))
         (ManagerBasedRLEnvCfg.events cfg)
    /\ Forall (fun nt => params_all ordered_range (DoneTerm.params nt.2))
         (ManagerBasedRLEnvCfg.terminations cfg)
    /\ Forall (fun nt => params_all ordered_range (RewTerm.params nt.2))
         (ManagerBasedRLEnvCfg.rewards cfg)
    /\ (exists watched lo hi,
          getattr "cart_out_of_bounds" (ManagerBasedRLEnvCfg.terminations cfg)
          = Some watched
          /\ param DoneTerm.params watched "bounds" = Some (PRange (lo, hi))
          /\ lo = PrimFloat.opp hi
          /\ PrimFloat.ltb lo hi = true).
Proof.
  destruct (new_total base CARTPOLE_CFG) as [cfg E].
  exists cfg. split; [exact E|].
  apply new_declared in E. destruct E as (_ & _ & _ & -> & -> & ->).
  split; [|split; [|split]].
  - each_param; repeat split.
  - each_param; repeat split.
  - each_param; repeat split.
  - do 3 eexists. split; [reflexivity|].
    split; [vm_compute; reflexivity|]. split; reflexivity.
Qed.

(** ** Further properties: the scene *)

(** Whatever attachment path the robot template comes with, the three
    entities of the scene are attached at three different paths, and the
    robot is the only one whose path carries the environment placeholder:
    the two lights are attached once, under "/World". *)
Theorem scene_paths_distinct {Host : Type}
    (base : ManagerBasedRLEnvCfg.inherited Host)
    (CARTPOLE_CFG : ArticulationCfg.t Host) :
  exists cfg,
    CartpoleDoubleEnvCfg.new base CARTPOLE_CFG = Some cfg
    /\ let entities :=
         InteractiveSceneCfg.entities (ManagerBasedRLEnvCfg.scene cfg) in
       let paths := map (fun nt => entity_prim_path nt.2) entities in
       NoDup paths
       /\ map (fun nt => (nt.1, per_environment (entity_prim_path nt.2))) entities
          = [("robot", true); ("dome_light", false); ("distant_light", false)]
       /\ Forall (fun nt => per_environment (entity_prim_path nt.2) = false ->
                            String.prefix "/World/" (entity_prim_path nt.2) = true)
            entities.
Proof.
  destruct (new_total base CARTPOLE_CFG) as [cfg E].
  exists cfg. split; [exact E|].
  apply new_declared in E. destruct E as (-> & _).
  cbv zeta. split; [|split].
  - apply NoDup_ListNoDup. simpl.
    repeat constructor; simpl; intuition discriminate.
  - reflexivity.
  - repeat constructor; simpl; discriminate.
Qed.

(** ** Further properties: the rewards *)

(** [alive] is the only reward term with a positive weight.  So when no
    term value is negative (indicators, absolute values and squares are
    not), the weighted sum of a step is at most 250 times the value of
    [alive]. *)
Theorem reward_at_most_alive (v : string -> Q)
    (Hnonneg : forall n, (0 <= v n)%Q) :
  map (fun nt => (nt.1, PrimFloat.ltb 0 (RewTerm.weight nt.2))) RewardsCfg
  = [("alive", true); ("terminating", false); ("pole_pos", false);
     ("pole_pos_double", false); ("cart_vel", false); ("pole_vel", false);
     ("cart_pos", false)]
  /\ exists r, reward RewardsCfg v = Some r /\ (r <= 250 * v "alive")%Q.
Proof.
  split; [reflexivity|].
  destruct (reward_total RewardsCfg v RewardsCfg_weights_finite) as [r Hr].
  exists r. split; [exact Hr|].
  revert Hr. unfold RewardsCfg. cbn [reward RewTerm.weight].
  eval_weights. simpl. intros [= <-].
  pose proof (Hnonneg "terminating"). pose proof (Hnonneg "pole_pos").
  pose proof (Hnonneg "pole_pos_double"). pose proof (Hnonneg "cart_vel").
  pose proof (Hnonneg "pole_vel"). pose proof (Hnonneg "cart_pos").
  lra.
Qed.

(** A step on which every term is worth one. *)
Lemma reward_at_most_alive_witness :
  let v : string -> Q := fun _ => 1%Q in
  (forall n, (0 <= v n)%Q)
  /\ exists r, reward RewardsCfg v = Some r /\ (r <= 250 * 1)%Q.
Proof.
  intros v.
  assert (Hnonneg : forall n, (0 <= v n)%Q) by (intros n; unfold v; lra).
  split; [exact Hnonneg|].
  destruct (reward_at_most_alive v Hnonneg) as (_ & r & Hr & Hle).
  exists r. split; [exact Hr|exact Hle].
Defined.

(** Which joints the penalties read.  The reward terms are built from
    [is_alive], [is_terminated], [joint_pos_target_l2] and [joint_vel_l1]
    only.  Each of the three joints is read by exactly one position penalty
    ([joint_pos_target_l2]), and every position penalty has target 0.0.
    The velocity penalties ([joint_vel_l1]) that can read "RailToCart" are
    [cart_vel] alone, those that can read "CartToPole" are [pole_vel]
    alone, and none can read "PoleToDouble": every velocity penalty passes
    an explicit joint list, and "PoleToDouble" is in none of them. *)
Theorem penalties_per_joint {Host : Type}
    (base : ManagerBasedRLEnvCfg.inherited Host)
    (CARTPOLE_CFG : ArticulationCfg.t Host) :
  exists cfg,
    CartpoleDoubleEnvCfg.new base CARTPOLE_CFG = Some cfg
    /\ let rewards := ManagerBasedRLEnvCfg.rewards cfg in
       Forall (fun nt => In (RewTerm.func nt.2)
                           [mdp.is_alive; mdp.is_terminated;
                            mdp.joint_pos_target_l2; mdp.joint_vel_l1])
         rewards
       /\ terms_reading mdp.joint_pos_target_l2 "RailToCart" rewards = ["cart_pos"]
       /\ terms_reading mdp.joint_pos_target_l2 "CartToPole" rewards = ["pole_pos"]
       /\ terms_reading mdp.joint_pos_target_l2 "PoleToDouble" rewards
          = ["pole_pos_double"]
       /\ terms_reading mdp.joint_vel_l1 "RailToCart" rewards = ["cart_vel"]
       /\ terms_reading mdp.joint_vel_l1 "CartToPole" rewards = ["pole_vel"]
       /\ terms_reading mdp.joint_vel_l1 "PoleToDouble" rewards = []
       /\ Forall (fun nt =>
                    RewTerm.func nt.2 = mdp.joint_vel_l1 ->
                    exists e js,
                      param RewTerm.params nt.2 "asset_cfg" = Some (PEntity e)
                      /\ SceneEntityCfg.joint_names e = Some js
                      /\ ~ In "PoleToDouble" js)
            rewards
       /\ Forall (fun nt => RewTerm.func nt.2 = mdp.joint_pos_target_l2 ->
                            param RewTerm.params nt.2 "target" = Some (PFloat 0.0))
            rewards.
Proof.
  destruct (new_total base CARTPOLE_CFG) as [cfg E].
  exists cfg. split; [exact E|].
  apply new_declared in E. destruct E as (_ & _ & _ & _ & -> & _).
  cbv zeta. split; [|repeat split; try (vm_compute; reflexivity)].
  - repeat constructor; simpl; tauto.
  - repeat constructor; simpl; intros Hf; try discriminate Hf;
      (do 2 eexists; split; [vm_compute; reflexivity|];
       split; [reflexivity|]; simpl; intuition discriminate).
  - repeat constructor; simpl; intros Hf;
      first [discriminate Hf | vm_compute; reflexivity].
Qed.
